(** * exoscale: configuration resolution, request tracing and resource reset

    A shallow embedding of [exoscale/__init__.py] (class [Exoscale]) and
    [exoscale/api/__init__.py] (classes [API] and [Resource]).

    Python's [None] is [None] of an [option]; a [str] is a [string]; a
    dictionary read by key is a [gmap]; a raised exception is [Err].  The
    parsed configuration file is typed the way its readers use it: an
    optional [default_profile] string and an optional [profiles] array of
    tables holding strings. *)

From stdpp Require Import base option strings list gmap.
From Stdlib Require Import QArith.QArith_base.

Local Open Scope string_scope.
Local Open Scope list_scope.

(** ** Exceptions and results *)

Inductive exn : Type :=
  | ConfigurationError (reason : string)
  | KeyError (key : string)
  | IndexError
  | FileNotFoundError (path : string)
  | TomlDecodeError (path : string)
  | RequestException (what : string).

Inductive result (A : Type) : Type :=
  | Ok (a : A)
  | Err (e : exn).
Arguments Ok {A} a.
Arguments Err {A} e.

#[global] Instance result_ret : MRet result := fun _ a => Ok a.
#[global] Instance result_bind : MBind result := fun _ _ f m =>
  match m with
  | Ok a => f a
  | Err e => Err e
  end.

Definition is_ConfigurationError (e : exn) : bool :=
  match e with
  | ConfigurationError _ => true
  | _ => false
  end.

(** ** Python values used by the resolver *)

(** The double-quote character, and [str.format] of an argument that may be
    [None]. *)
Definition dq : string := String (Ascii.Ascii false true false false false true false false) EmptyString.

Definition py_str (v : option string) : string :=
  match v with
  | Some s => s
  | None => "None"
  end.

(** Truth value of an object that is [None] or a [str]. *)
Definition truthy (v : option string) : bool :=
  match v with
  | None => false
  | Some EmptyString => false
  | Some (String _ _) => true
  end.

(** [a == b] on objects that are [None] or a [str]. *)
Definition py_eq (a b : option string) : bool := bool_decide (a = b).

(** A table of a TOML array of tables. *)
Abbreviation profile := (gmap string string).

(** [d[k]] on a dictionary. *)
Definition getitem (d : profile) (k : string) : result string :=
  match d !! k with
  | Some v => Ok v
  | None => Err (KeyError k)
  end.

(** The dictionary returned by [toml.load]. [other_keys] are the top-level
    keys besides the two the client reads; they only matter to the truth
    value of the dictionary. *)
Record config : Type := Config {
  default_profile : option string;
  profiles : option (list profile);
  other_keys : list string
}.

Definition config_truthy (c : config) : bool :=
  match default_profile c, profiles c, other_keys c with
  | None, None, [] => false
  | _, _, _ => true
  end.

(** ** The process environment *)

(** Iteration order of the set literal [{"name", "api_key", "api_secret"}]:
    fixed by the interpreter's string hashing, not by the program. *)
Inductive set_order : Type :=
  | NKS | NSK | KNS | KSN | SNK | SKN.

Definition required_keys (o : set_order) : list string :=
  match o with
  | NKS => ["name"; "api_key"; "api_secret"]
  | NSK => ["name"; "api_secret"; "api_key"]
  | KNS => ["api_key"; "name"; "api_secret"]
  | KSN => ["api_key"; "api_secret"; "name"]
  | SNK => ["api_secret"; "name"; "api_key"]
  | SKN => ["api_secret"; "api_key"; "name"]
  end.

(** A file on disk, as [open] and [toml.load] see it. *)
Inductive file : Type :=
  | Unparsable
  | Document (c : config).

Record world : Type := World {
  environ : gmap string string;
  files : gmap string file;
  _DEFAULT_CONFIG_FILE : string;
  hash_order : set_order
}.

Definition getenv (w : world) (name : string) : option string := environ w !! name.

Definition path_exists (w : world) (path : string) : bool :=
  bool_decide (is_Some (files w !! path)).

(** [with open(path) as f: toml.load(f)] *)
Definition toml_load (w : world) (path : string) : result config :=
  match files w !! path with
  | None => Err (FileNotFoundError path)
  | Some Unparsable => Err (TomlDecodeError path)
  | Some (Document c) => Ok c
  end.

Definition _API_KEY_ENVVAR : string := "EXOSCALE_API_KEY".
Definition _API_SECRET_ENVVAR : string := "EXOSCALE_API_SECRET".
Definition _COMPUTE_API_ENDPOINT_ENVVAR : string := "EXOSCALE_COMPUTE_API_ENDPOINT".
Definition _DNS_API_ENDPOINT_ENVVAR : string := "EXOSCALE_DNS_API_ENDPOINT".
Definition _RUNSTATUS_API_ENDPOINT_ENVVAR : string := "EXOSCALE_RUNSTATUS_API_ENDPOINT".
Definition _STORAGE_API_ENDPOINT_ENVVAR : string := "EXOSCALE_STORAGE_API_ENDPOINT".
Definition _IAM_API_ENDPOINT_ENVVAR : string := "EXOSCALE_IAM_API_ENDPOINT".
Definition _STORAGE_ZONE_ENVVAR : string := "EXOSCALE_STORAGE_ZONE".
Definition _CONFIG_FILE_ENVVAR : string := "EXOSCALE_CONFIG_FILE".

(** ** [Exoscale._get_profile] *)

(** The loop [for a in self._config["profiles"]: if a["name"] == profile: return a]
    followed by the [raise] after it. *)
Fixpoint find_profile (ps : list profile) (name : option string) : result profile :=
  match ps with
  | [] => Err (ConfigurationError ("profile " ++ dq ++ py_str name ++ dq ++ " not found"))
  | a :: ps' =>
      n ← getitem a "name";
      if py_eq (Some n) name then Ok a else find_profile ps' name
  end.

Definition _get_profile (c : config) (name : option string) : result profile :=
  match profiles c with
  | None => Err (ConfigurationError "no profiles configured")
  | Some ps =>
      if (length ps =? 0)%nat then Err (ConfigurationError "no profiles configured")
      else if truthy name || bool_decide (is_Some (default_profile c)) then
        let name :=
          match default_profile c with
          | Some d => if negb (truthy name) then Some d else name
          | None => name
          end in
        find_profile ps name
      else
        match ps with
        | a :: _ => Ok a
        | [] => Err IndexError
        end
  end.

(** ** [Exoscale.__init__]: resolution of the settings (lines 70 to 168) *)

Record args : Type := Args {
  a_config_file : option string;
  a_profile : option string;
  a_api_key : option string;
  a_api_secret : option string;
  a_compute_api_endpoint : option string;
  a_dns_api_endpoint : option string;
  a_storage_api_endpoint : option string;
  a_storage_zone : option string;
  a_runstatus_api_endpoint : option string;
  a_iam_api_endpoint : option string;
  a_max_retries : Z;
  a_trace : bool
}.

(** The call [Exoscale()] with every parameter at its default. *)
Definition no_args : args :=
  Args None None None None None None None None None None 3 false.

(** Lines 70 to 83: [self._config], or [None] when the attribute is never set. *)
Definition load_config (w : world) (config_file : option string) : result (option config) :=
  let config_file := if truthy config_file then config_file else getenv w _CONFIG_FILE_ENVVAR in
  _config ← (if truthy config_file
             then c ← toml_load w (py_str config_file); mret (Some c)
             else mret None);
  if negb (from_option config_truthy false _config) && path_exists w (_DEFAULT_CONFIG_FILE w)
  then c ← toml_load w (_DEFAULT_CONFIG_FILE w); mret (Some c)
  else mret _config.

(** Lines 87 to 91: [for k in {...}: if k not in profile: raise ...]. *)
Fixpoint check_keys (ks : list string) (p : profile) : result unit :=
  match ks with
  | [] => Ok tt
  | k :: ks' =>
      match p !! k with
      | None => Err (ConfigurationError ("profile missing " ++ dq ++ k ++ dq ++ " key"))
      | Some _ => check_keys ks' p
      end
  end.

(** Lines 85 to 91: the profile in use, or [None] without a configuration. *)
Definition select_profile (w : world) (a : args) : result (option profile) :=
  _config ← load_config w (a_config_file a);
  match _config with
  | Some c =>
      p ← _get_profile c (a_profile a);
      _ ← check_keys (required_keys (hash_order w)) p;
      mret (Some p)
  | None => mret None
  end.

(** [x if x else os.getenv(NAME, None)] *)
Definition or_env (w : world) (x : option string) (name : string) : option string :=
  if truthy x then x else getenv w name.

(** [profile.get(k, None) if not x else x] *)
Definition or_profile_get (p : profile) (x : option string) (k : string) : option string :=
  if negb (truthy x) then p !! k else x.

(** [profile[k] if not x else x] *)
Definition or_profile_item (p : profile) (x : option string) (k : string) : result (option string) :=
  if negb (truthy x) then v ← getitem p k; mret (Some v) else mret x.

(** The local variables at line 168. *)
Record settings : Type := Settings {
  s_api_key : string;
  s_api_secret : string;
  s_compute_api_endpoint : option string;
  s_dns_api_endpoint : option string;
  s_storage_api_endpoint : option string;
  s_storage_zone : option string;
  s_runstatus_api_endpoint : option string;
  s_iam_api_endpoint : option string
}.

(** The eight variables after lines 93 to 126, kept as a tuple of the
    arguments when no configuration is in use. *)
Record merged : Type := Merged {
  m_api_key : option string;
  m_api_secret : option string;
  m_compute_api_endpoint : option string;
  m_dns_api_endpoint : option string;
  m_storage_api_endpoint : option string;
  m_storage_zone : option string;
  m_runstatus_api_endpoint : option string;
  m_iam_api_endpoint : option string
}.

Definition merge_profile (op : option profile) (a : args) : result merged :=
  match op with
  | Some p =>
      api_key ← or_profile_item p (a_api_key a) "api_key";
      api_secret ← or_profile_item p (a_api_secret a) "api_secret";
      mret (Merged api_key api_secret
        (or_profile_get p (a_compute_api_endpoint a) "compute_api_endpoint")
        (or_profile_get p (a_dns_api_endpoint a) "dns_api_endpoint")
        (or_profile_get p (a_storage_api_endpoint a) "storage_api_endpoint")
        (or_profile_get p (a_storage_zone a) "storage_zone")
        (or_profile_get p (a_runstatus_api_endpoint a) "runstatus_api_endpoint")
        (or_profile_get p (a_iam_api_endpoint a) "iam_api_endpoint"))
  | None =>
      mret (Merged (a_api_key a) (a_api_secret a)
        (a_compute_api_endpoint a) (a_dns_api_endpoint a)
        (a_storage_api_endpoint a) (a_storage_zone a)
        (a_runstatus_api_endpoint a) (a_iam_api_endpoint a))
  end.

(** Lines 128 to 168. *)
Definition merge_env (w : world) (m : merged) : result settings :=
  let api_key := or_env w (m_api_key m) _API_KEY_ENVVAR in
  let api_secret := or_env w (m_api_secret m) _API_SECRET_ENVVAR in
  let compute_api_endpoint := or_env w (m_compute_api_endpoint m) _COMPUTE_API_ENDPOINT_ENVVAR in
  let dns_api_endpoint := or_env w (m_dns_api_endpoint m) _DNS_API_ENDPOINT_ENVVAR in
  let storage_api_endpoint := or_env w (m_storage_api_endpoint m) _STORAGE_API_ENDPOINT_ENVVAR in
  let storage_zone := or_env w (m_storage_zone m) _STORAGE_ZONE_ENVVAR in
  let runstatus_api_endpoint := or_env w (m_runstatus_api_endpoint m) _RUNSTATUS_API_ENDPOINT_ENVVAR in
  let iam_api_endpoint := or_env w (m_iam_api_endpoint m) _IAM_API_ENDPOINT_ENVVAR in
  match api_key, api_secret with
  | Some k, Some s =>
      Ok (Settings k s compute_api_endpoint dns_api_endpoint storage_api_endpoint
            storage_zone runstatus_api_endpoint iam_api_endpoint)
  | _, _ => Err (ConfigurationError "missing API key/secret")
  end.

Definition resolve (w : world) (a : args) : result settings :=
  op ← select_profile w a;
  m ← merge_profile op a;
  merge_env w m.

(** ** [API]: the attrs class and its shared default session *)

Definition loc : Type := positive.

(** [Retry(total=..., backoff_factor=..., status_forcelist=None)] inside an
    [HTTPAdapter]. *)
Record adapter : Type := Adapter {
  total : Z;
  backoff_factor : Q;
  status_forcelist : option (list Z)
}.

(** A [requests.Session] is the table of its mounted adapters; the store
    holds every session object that is alive. *)
Abbreviation session_obj := (gmap string adapter).
Abbreviation store := (gmap loc session_obj).

(** [field(default=requests.Session())]: the default is evaluated once, when
    the class body runs, and that one object is the default of every
    instance. *)
Definition default_session : loc := 1%positive.

(** [HTTPAdapter()], the adapter a new session starts with for both
    schemes: no retry. *)
Definition plain_adapter : adapter := Adapter 0 0 None.

(** The sessions alive once the module is imported: the default one. *)
Definition initial_store : store :=
  {[ default_session := {[ "https://" := plain_adapter; "http://" := plain_adapter ]} ]}.

Record API : Type := MkAPI {
  endpoint : string;
  key : string;
  secret : string;
  trace : bool;
  session : loc;
  max_retries : Z;
  retry_backoff_factor : Q
}.

(** [self.session.mount(prefix, adapter=adapter)] *)
Definition mount (s : loc) (prefix : string) (ad : adapter) (st : store) : store :=
  alter (fun o => <[prefix := ad]> o) s st.

Definition __attrs_post_init__ (self : API) (st : store) : store :=
  let ad := Adapter (max_retries self) (retry_backoff_factor self) None in
  mount (session self) "https://" ad (mount (session self) "http://" ad st).

(** The generated [__init__] followed by [__attrs_post_init__]; an optional
    argument left out is [None] here. *)
Definition API_new (endpoint key secret : string) (trace : option bool)
    (session : option loc) (max_retries : option Z) (retry_backoff_factor : option Q)
    (st : store) : API * store :=
  let self := MkAPI endpoint key secret
                (default false trace)
                (default default_session session)
                (default 3%Z max_retries)
                (default (3 # 10)%Q retry_backoff_factor) in
  (self, __attrs_post_init__ self st).

(** ** [Exoscale.__init__]: the five clients (lines 170 to 220) *)

(** The [kwargs] dictionary handed to a family client; a key that is not set
    is [None]. *)
Record kwargs : Type := Kwargs {
  kw_key : string;
  kw_secret : string;
  kw_max_retries : Z;
  kw_trace : bool;
  kw_endpoint : option string;
  kw_zone : option string;
  kw_session : option loc
}.

Definition compute_kwargs (s : settings) (a : args) : kwargs :=
  Kwargs (s_api_key s) (s_api_secret s) (a_max_retries a) (a_trace a)
    (s_compute_api_endpoint s) None None.
Definition dns_kwargs (s : settings) (a : args) : kwargs :=
  Kwargs (s_api_key s) (s_api_secret s) (a_max_retries a) (a_trace a)
    (s_dns_api_endpoint s) None None.
Definition storage_kwargs (s : settings) (a : args) : kwargs :=
  Kwargs (s_api_key s) (s_api_secret s) (a_max_retries a) (a_trace a)
    (s_storage_api_endpoint s) (s_storage_zone s) None.
Definition runstatus_kwargs (s : settings) (a : args) : kwargs :=
  Kwargs (s_api_key s) (s_api_secret s) (a_max_retries a) (a_trace a)
    (s_runstatus_api_endpoint s) None None.
Definition iam_kwargs (s : settings) (a : args) : kwargs :=
  Kwargs (s_api_key s) (s_api_secret s) (a_max_retries a) (a_trace a)
    (s_iam_api_endpoint s) None None.

(** The endpoints compiled into the five family modules. *)
Record family_defaults : Type := FamilyDefaults {
  compute_default : string;
  dns_default : string;
  storage_default : string;
  runstatus_default : string;
  iam_default : string
}.

(** Modelled from the spec: the family classes [ComputeAPI], [DnsAPI],
    [StorageAPI], [RunstatusAPI] and [IamAPI] live in modules that are not
    part of the sources at hand.  Each is a dispatcher built by [API] from the
    shared key, secret, retry and trace settings and from the endpoint
    override or else the family's compiled-in default; the storage family
    also keeps the zone.  A session is passed on only when the caller gave
    one. *)
Definition family_new (default_endpoint : string) (kw : kwargs) (st : store) : API * store :=
  API_new (default default_endpoint (kw_endpoint kw)) (kw_key kw) (kw_secret kw)
    (Some (kw_trace kw)) (kw_session kw) (Some (kw_max_retries kw)) None st.

(** Modelled from the spec: the storage family is the one that consumes the
    extra [zone] keyword. *)
Record StorageAPI : Type := MkStorageAPI {
  storage_api : API;
  zone : option string
}.

Definition storage_new (default_endpoint : string) (kw : kwargs) (st : store)
    : StorageAPI * store :=
  let '(c, st) := family_new default_endpoint kw st in
  (MkStorageAPI c (kw_zone kw), st).

Record Exoscale : Type := MkExoscale {
  api_key : string;
  api_secret : string;
  compute : API;
  dns : API;
  storage : StorageAPI;
  runstatus : API;
  iam : API
}.

Definition build (fd : family_defaults) (s : settings) (a : args) (st : store) : Exoscale * store :=
  let '(compute, st) := family_new (compute_default fd) (compute_kwargs s a) st in
  let '(dns, st) := family_new (dns_default fd) (dns_kwargs s a) st in
  let '(storage, st) := storage_new (storage_default fd) (storage_kwargs s a) st in
  let '(runstatus, st) := family_new (runstatus_default fd) (runstatus_kwargs s a) st in
  let '(iam, st) := family_new (iam_default fd) (iam_kwargs s a) st in
  (MkExoscale (s_api_key s) (s_api_secret s) compute dns storage runstatus iam, st).

(** [Exoscale(...)]: the client, or the exception that aborts construction;
    nothing is mounted when the settings do not resolve. *)
Definition Exoscale_init (fd : family_defaults) (w : world) (a : args) (st : store)
    : result Exoscale * store :=
  match resolve w a with
  | Ok s => let '(self, st') := build fd s a st in (Ok self, st')
  | Err e => (Err e, st)
  end.

(** ** [API.send] *)

Record PreparedRequest : Type := MkRequest {
  req_method : string;
  req_url : string;
  req_headers : string;
  req_body : option string
}.

Record Response : Type := MkResponse {
  status_code : string;
  reason : string;
  res_headers : string;
  text : string
}.

(** The lines written to [sys.stderr] around the request. Numbers and header
    tables are carried as the text [str.format] renders them to. *)
Definition pre_lines (req : PreparedRequest) : list string :=
  [(">>> " ++ req_method req ++ " " ++ req_url req)%string;
   ("    headers:" ++ req_headers req)%string]
  ++ (if truthy (req_body req) then [("    body:" ++ py_str (req_body req))%string] else []).

Definition post_lines (res : Response) : list string :=
  [("<<< " ++ status_code res ++ " " ++ reason res)%string;
   ("    headers:" ++ res_headers res)%string;
   ("    body:" ++ text res)%string].

Section Send.
(** The [requests] library: building a prepared request from the keyword
    arguments, and sending it through a session. Either may raise. *)
Context {request_kwargs : Type}.
Variable prepare : request_kwargs -> result PreparedRequest.
Variable session_send : loc -> PreparedRequest -> result Response.

(** [send] returns what it wrote to [sys.stderr] and its outcome. *)
Definition send (self : API) (kw : request_kwargs) : list string * result Response :=
  match prepare kw with
  | Err e => ([], Err e)
  | Ok req =>
      let out := if trace self then pre_lines req else [] in
      match session_send (session self) req with
      | Err e => (out, Err e)
      | Ok res =>
          let out := out ++ (if trace self then post_lines res else []) in
          (out, Ok res)
      end
  end.

(** What the tracing contract asks of one call: the call failed and
    nothing was written, or the lines before the request and the lines
    after the response were both written. *)
Definition all_or_nothing (kw : request_kwargs) (r : list string * result Response) : Prop :=
  (r.1 = [] ∧ ∃ e, r.2 = Err e)
  ∨ (∃ req res, prepare kw = Ok req ∧ r.1 = pre_lines req ++ post_lines res ∧ r.2 = Ok res).
End Send.

(** ** [Resource._reset] *)

Inductive value : Type :=
  | VNone
  | VStr (s : string)
  | VInt (z : Z)
  | VBool (b : bool)
  | VRef (l : loc).

(** An attrs instance is the table of its fields; the heap holds the
    instances, and a Python reference is a location in it. *)
Abbreviation object := (gmap string value).
Abbreviation heap := (gmap loc object).

(** The keys of [asdict(self)]: the names of the instance's fields. *)
Definition asdict_keys (o : object) : list string := (map_to_list o).*1.

Definition setattr (self : loc) (k : string) (v : value) (h : heap) : heap :=
  alter (fun o => <[k := v]> o) self h.

Definition getattr (self : loc) (k : string) (h : heap) : option value :=
  o ← h !! self; o !! k.

(** [for k in ks: setattr(self, k, None)] *)
Definition reset_fields (self : loc) (ks : list string) (h : heap) : heap :=
  foldl (fun h k => setattr self k VNone h) h ks.

Definition _reset (self : loc) (h : heap) : heap :=
  match h !! self with
  | Some o => reset_fields self (asdict_keys o) h
  | None => h
  end.

(** ** The fields that are resolved, and where each one is read from *)

Inductive field : Type :=
  | F_api_key
  | F_api_secret
  | F_compute_api_endpoint
  | F_dns_api_endpoint
  | F_storage_api_endpoint
  | F_storage_zone
  | F_runstatus_api_endpoint
  | F_iam_api_endpoint.

Definition arg_of (f : field) (a : args) : option string :=
  match f with
  | F_api_key => a_api_key a
  | F_api_secret => a_api_secret a
  | F_compute_api_endpoint => a_compute_api_endpoint a
  | F_dns_api_endpoint => a_dns_api_endpoint a
  | F_storage_api_endpoint => a_storage_api_endpoint a
  | F_storage_zone => a_storage_zone a
  | F_runstatus_api_endpoint => a_runstatus_api_endpoint a
  | F_iam_api_endpoint => a_iam_api_endpoint a
  end.

Definition profile_key (f : field) : string :=
  match f with
  | F_api_key => "api_key"
  | F_api_secret => "api_secret"
  | F_compute_api_endpoint => "compute_api_endpoint"
  | F_dns_api_endpoint => "dns_api_endpoint"
  | F_storage_api_endpoint => "storage_api_endpoint"
  | F_storage_zone => "storage_zone"
  | F_runstatus_api_endpoint => "runstatus_api_endpoint"
  | F_iam_api_endpoint => "iam_api_endpoint"
  end.

Definition envvar (f : field) : string :=
  match f with
  | F_api_key => _API_KEY_ENVVAR
  | F_api_secret => _API_SECRET_ENVVAR
  | F_compute_api_endpoint => _COMPUTE_API_ENDPOINT_ENVVAR
  | F_dns_api_endpoint => _DNS_API_ENDPOINT_ENVVAR
  | F_storage_api_endpoint => _STORAGE_API_ENDPOINT_ENVVAR
  | F_storage_zone => _STORAGE_ZONE_ENVVAR
  | F_runstatus_api_endpoint => _RUNSTATUS_API_ENDPOINT_ENVVAR
  | F_iam_api_endpoint => _IAM_API_ENDPOINT_ENVVAR
  end.

(** The value the construction goes on with. *)
Definition chosen (f : field) (s : settings) : option string :=
  match f with
  | F_api_key => Some (s_api_key s)
  | F_api_secret => Some (s_api_secret s)
  | F_compute_api_endpoint => s_compute_api_endpoint s
  | F_dns_api_endpoint => s_dns_api_endpoint s
  | F_storage_api_endpoint => s_storage_api_endpoint s
  | F_storage_zone => s_storage_zone s
  | F_runstatus_api_endpoint => s_runstatus_api_endpoint s
  | F_iam_api_endpoint => s_iam_api_endpoint s
  end.

(** The entry of the profile in use, [None] when there is no profile or no
    such entry. *)
Definition profile_entry (f : field) (op : option profile) : option string :=
  p ← op; p !! profile_key f.

(** The precedence as the specification words it: a value that is not
    truthy is skipped at all three levels. *)
Definition precedence_as_stated (explicit prof env : option string) : option string :=
  if truthy explicit then explicit
  else if truthy prof then prof
  else if truthy env then env
  else None.

(** The precedence with the environment taken as it is. *)
Definition precedence (explicit prof env : option string) : option string :=
  if truthy explicit then explicit
  else if truthy prof then prof
  else env.


Definition missing_key_message (k : string) : string :=
  "profile missing " ++ dq ++ k ++ dq ++ " key".

Definition clients (self : Exoscale) : list API :=
  [compute self; dns self; storage_api (storage self); runstatus self; iam self].

(** A profile that can be found by name. *)
Definition has_name (p : profile) : Prop := is_Some (p !! "name").

(** The first profile of the list that carries the given name. *)
Definition first_named (n : string) (ps : list profile) : option profile :=
  List.find (fun p => bool_decide (p !! "name" = Some n)) ps.

(** The same client with the tracing flag set to [b]. *)
Definition with_trace (b : bool) (self : API) : API :=
  MkAPI (endpoint self) (key self) (secret self) b (session self)
        (max_retries self) (retry_backoff_factor self).


(** A family client that holds the shared session and the settings of the
    top-level client [self], built from the arguments [a]. *)
Definition same_settings (self : Exoscale) (a : args) (c : API) : Prop :=
  session c = default_session
  ∧ key c = api_key self
  ∧ secret c = api_secret self
  ∧ max_retries c = a_max_retries a
  ∧ trace c = a_trace a.

(** ** Concrete worlds, files and objects used as examples *)

Definition fd_example : family_defaults :=
  FamilyDefaults "https://compute.example" "https://dns.example/v1"
    "https://sos.example" "https://runstatus.example" "https://iam.example".

Definition p_default : profile :=
  {[ "name" := "default"; "api_key" := "EXOdefault"; "api_secret" := "sdefault" ]}.
Definition p_other : profile :=
  {[ "name" := "other"; "api_key" := "EXOother"; "api_secret" := "sother";
     "dns_api_endpoint" := "https://dns.example" ]}.
Definition p_no_secret : profile :=
  {[ "name" := "broken"; "api_key" := "EXObroken" ]}.
Definition p_no_name : profile :=
  {[ "api_key" := "EXOanon"; "api_secret" := "sanon" ]}.

Definition c_two : config := Config (Some "other") (Some [p_default; p_other]) [].
Definition c_no_secret : config := Config None (Some [p_no_secret]) [].
Definition c_no_name : config := Config None (Some [p_no_name; p_default]) [].
Definition c_no_profiles : config := Config None (Some []) [].
Definition c_empty : config := Config None None [].

(** No file, no variable. *)
Definition w_nothing : world := World ∅ ∅ "/home/u/config.toml" NKS.

(** Both credential variables are set, to the empty string. *)
Definition w_empty_credentials : world :=
  World {[ _API_KEY_ENVVAR := EmptyString; _API_SECRET_ENVVAR := EmptyString ]}
        ∅ "/home/u/config.toml" NKS.

Definition w_env_credentials : world :=
  World {[ _API_KEY_ENVVAR := "EXOenv"; _API_SECRET_ENVVAR := "senv" ]}
        ∅ "/home/u/config.toml" NKS.

(** A file with two profiles and a default, next to variables for the key,
    the DNS endpoint and the storage zone. *)
Definition w_profile_other : world :=
  World {[ _API_KEY_ENVVAR := "EXOenv"; _DNS_API_ENDPOINT_ENVVAR := "https://dns.env";
           _STORAGE_ZONE_ENVVAR := "ch-gva-2" ]}
        {[ "/etc/exoscale.toml" := Document c_two ]} "/home/u/config.toml" NKS.

(** The secret is missing from the only profile and set in the environment. *)
Definition w_no_secret : world :=
  World {[ _API_KEY_ENVVAR := "EXOenv"; _API_SECRET_ENVVAR := "senv" ]}
        {[ "/etc/exoscale.toml" := Document c_no_secret ]} "/home/u/config.toml" SKN.

(** The first profile of the file has no name. *)
Definition w_no_name : world :=
  World ∅ {[ "/etc/exoscale.toml" := Document c_no_name ]} "/home/u/config.toml" NKS.

(** An explicit file that parses to the empty table, next to a default file
    with the two profiles of [c_two]. *)
Definition w_empty_explicit : world :=
  World ∅ {[ "/tmp/empty.toml" := Document c_empty;
             "/home/u/config.toml" := Document c_two ]}
        "/home/u/config.toml" NKS.

Definition a_file : args :=
  Args (Some "/etc/exoscale.toml") None None None None None None None None None 3 false.

Definition a_file_nosuch : args :=
  Args (Some "/etc/exoscale.toml") (Some "nosuch") None None None None None None None None 3 false.

Definition a_profile_other : args :=
  Args (Some "/etc/exoscale.toml") None (Some "EXOexplicit") (Some EmptyString)
       None None None None None None 3 false.

Definition a_empty_explicit : args :=
  Args (Some "/tmp/empty.toml") None None None None None None None None None 3 false.

Definition a_retries : args :=
  Args None None (Some "EXOarg") (Some "sarg") None (Some "https://dns.arg") None
       (Some "de-fra-1") None None 7 true.

Definition client_env : Exoscale :=
  (build fd_example (Settings "EXOenv" "senv" None None None None None None) no_args initial_store).1.

Definition client_args : Exoscale :=
  (build fd_example
     (Settings "EXOarg" "sarg" None (Some "https://dns.arg") None (Some "de-fra-1") None None)
     a_retries initial_store).1.

Definition api_traced : API :=
  MkAPI "https://api.example/v1" "EXOkey" "s3cret" true default_session 3 (3 # 10)%Q.

Definition req_example : PreparedRequest :=
  MkRequest "GET" "https://api.example/v1/zones" "{'Accept': '*/*'}" None.

Definition prepare_example (kw : unit) : result PreparedRequest := Ok req_example.

(** A transport on which every connection is refused. *)
Definition session_refused (s : loc) (req : PreparedRequest) : result Response :=
  Err (RequestException "connection refused").

Definition o_example : object :=
  {[ "res" := VStr "payload"; "id" := VInt 7; "zone" := VRef 9%positive ]}.

Definition h_example : heap :=
  {[ 5%positive := o_example;
     9%positive := {[ "res" := VNone; "name" := VStr "ch-gva-2" ]} ]}.

(** ** Further definitions used to state properties of the code *)

(** The path lines 70 to 74 leave in [config_file]: the argument when it is
    truthy, else the value of the override variable. *)
Definition named_path (w : world) (config_file : option string) : option string :=
  if truthy config_file then config_file else getenv w _CONFIG_FILE_ENVVAR.

(** The same process with one more variable set. *)
Definition setenv (name value : string) (w : world) : world :=
  World (<[name := value]> (environ w)) (files w) (_DEFAULT_CONFIG_FILE w) (hash_order w).

(** The same call with another [profile] argument. *)
Definition with_profile (x : option string) (a : args) : args :=
  Args (a_config_file a) x (a_api_key a) (a_api_secret a)
       (a_compute_api_endpoint a) (a_dns_api_endpoint a) (a_storage_api_endpoint a)
       (a_storage_zone a) (a_runstatus_api_endpoint a) (a_iam_api_endpoint a)
       (a_max_retries a) (a_trace a).


Definition is_Ok {A : Type} (r : result A) : Prop :=
  match r with
  | Ok _ => True
  | Err _ => False
  end.


(** [Exoscale.__repr__], which [__str__] returns as well. *)
Definition Exoscale_repr (self : Exoscale) : string :=
  "Exoscale(api_key='" ++ api_key self ++ "')".

Definition Exoscale_str (self : Exoscale) : string := Exoscale_repr self.

(** The variable of a field after the profile stage. *)
Definition merged_of (f : field) (m : merged) : option string :=
  match f with
  | F_api_key => m_api_key m
  | F_api_secret => m_api_secret m
  | F_compute_api_endpoint => m_compute_api_endpoint m
  | F_dns_api_endpoint => m_dns_api_endpoint m
  | F_storage_api_endpoint => m_storage_api_endpoint m
  | F_storage_zone => m_storage_zone m
  | F_runstatus_api_endpoint => m_runstatus_api_endpoint m
  | F_iam_api_endpoint => m_iam_api_endpoint m
  end.

(** The name [_get_profile] searches for, [None] when it takes the first
    profile instead. *)
Definition searched_name (c : config) (name : option string) : option string :=
  if truthy name then name else default_profile c.

(** More examples. *)

Definition w_missing_file : world :=
  World {[ _API_KEY_ENVVAR := "EXOenv"; _API_SECRET_ENVVAR := "senv" ]}
        {[ "/home/u/config.toml" := Document c_two ]} "/home/u/config.toml" NKS.

Definition a_missing_file : args :=
  Args (Some "/nowhere.toml") None None None None None None None None None 3 false.

Definition w_no_profiles : world :=
  World {[ _API_KEY_ENVVAR := "EXOenv"; _API_SECRET_ENVVAR := "senv" ]}
        {[ "/etc/exoscale.toml" := Document c_no_profiles ]} "/home/u/config.toml" NKS.

Definition a_file_credentials : args :=
  Args (Some "/etc/exoscale.toml") None (Some "EXOarg") (Some "sarg")
       None None None None None None 3 false.

Definition a_named : args :=
  Args None (Some "other") None None None None None None None None 3 false.

Definition api_seven : API :=
  MkAPI "https://api.example/v1" "EXOkey" "s3cret" false default_session 7 (3 # 10)%Q.

Definition res_example : Response :=
  MkResponse "200" "OK" "{'Content-Type': 'application/json'}" "{}".

Definition session_ok (s : loc) (req : PreparedRequest) : result Response := Ok res_example.

(** ** Proof support *)

Ltac unmonad :=
  unfold mbind, mret, result_bind, result_ret in *; simpl in *.

(** * Theorems *)

(** ** Basic facts about the resolver *)

Example get_profile_ex :
  _get_profile (Config (Some "other") (Some [ {["name" := "default"]}; {["name" := "other"]} ]) []) None
  = Ok {["name" := "other"]}.
Proof. vm_compute. reflexivity. Qed.

Lemma truthy_Some_inv (v : option string) :
  truthy v = true → ∃ s, v = Some s.
Proof. destruct v as [s|]; [eauto | discriminate]. Qed.

Lemma check_keys_ok (o : set_order) (p : profile) :
  check_keys (required_keys o) p = Ok tt →
  is_Some (p !! "name") ∧ is_Some (p !! "api_key") ∧ is_Some (p !! "api_secret").
Proof.
  destruct o; simpl;
    destruct (p !! "name"), (p !! "api_key"), (p !! "api_secret");
    intros H; try discriminate H; eauto.
Qed.

Lemma check_keys_missing (o : set_order) (p : profile) :
  (p !! "name" = None ∨ p !! "api_key" = None ∨ p !! "api_secret" = None) →
  ∃ k, k ∈ ["name"; "api_key"; "api_secret"] ∧ p !! k = None
       ∧ check_keys (required_keys o) p = Err (ConfigurationError (missing_key_message k)).
Proof.
  intros H.
  destruct (p !! "name") eqn:En, (p !! "api_key") eqn:Ek, (p !! "api_secret") eqn:Es;
    try (exfalso; destruct H as [H|[H|H]]; discriminate H);
    destruct o; simpl; rewrite ?En, ?Ek, ?Es;
    first [ exists "name"; split; [repeat constructor | split; [assumption | reflexivity]]
          | exists "api_key"; split; [repeat constructor | split; [assumption | reflexivity]]
          | exists "api_secret"; split; [repeat constructor | split; [assumption | reflexivity]] ].
Qed.

Lemma select_profile_keys (w : world) (a : args) (p : profile) :
  select_profile w a = Ok (Some p) →
  is_Some (p !! "name") ∧ is_Some (p !! "api_key") ∧ is_Some (p !! "api_secret").
Proof.
  unfold select_profile. destruct (load_config w (a_config_file a)) as [[c|]|e]; unmonad;
    try discriminate.
  destruct (_get_profile c (a_profile a)) as [q|e]; try discriminate.
  destruct (check_keys (required_keys (hash_order w)) q) as [[]|e] eqn:Hc; try discriminate.
  intros [= ->]. eapply check_keys_ok, Hc.
Qed.

Lemma or_env_precedence (w : world) (x : option string) (name : string) :
  or_env w x name = precedence x None (getenv w name).
Proof. unfold or_env, precedence. destruct (truthy x); reflexivity. Qed.

Lemma or_profile_get_precedence (w : world) (p : profile) (x : option string) (k name : string) :
  or_env w (or_profile_get p x k) name = precedence x (p !! k) (getenv w name).
Proof.
  unfold or_env, or_profile_get, precedence.
  destruct (truthy x) eqn:Hx; simpl; [rewrite Hx|]; reflexivity.
Qed.

Lemma Exoscale_init_Err (fd : family_defaults) (w : world) (a : args) (st : store) (e : exn) :
  resolve w a = Err e → Exoscale_init fd w a st = (Err e, st).
Proof. unfold Exoscale_init. intros ->. reflexivity. Qed.

Lemma Exoscale_init_Ok (fd : family_defaults) (w : world) (a : args) (st : store) (s : settings) :
  resolve w a = Ok s →
  Exoscale_init fd w a st = (Ok (build fd s a st).1, (build fd s a st).2).
Proof.
  unfold Exoscale_init. intros ->. destruct (build fd s a st) as [self st']. reflexivity.
Qed.

Lemma Exoscale_init_inv (fd : family_defaults) (w : world) (a : args) (st st' : store) (self : Exoscale) :
  Exoscale_init fd w a st = (Ok self, st') →
  ∃ s, resolve w a = Ok s ∧ build fd s a st = (self, st').
Proof.
  unfold Exoscale_init. destruct (resolve w a) as [s|e]; [|discriminate].
  destruct (build fd s a st) as [self0 st0] eqn:Hb. intros H. injection H as -> ->. eauto.
Qed.

(** The client carries the resolved settings: the key and the secret as they
    are, each endpoint unless it is [None], and the zone. *)
Lemma build_fields (fd : family_defaults) (s : settings) (a : args) (st : store) :
  let self := (build fd s a st).1 in
  api_key self = s_api_key s
  ∧ api_secret self = s_api_secret s
  ∧ endpoint (compute self) = default (compute_default fd) (s_compute_api_endpoint s)
  ∧ endpoint (dns self) = default (dns_default fd) (s_dns_api_endpoint s)
  ∧ endpoint (storage_api (storage self)) = default (storage_default fd) (s_storage_api_endpoint s)
  ∧ zone (storage self) = s_storage_zone s
  ∧ endpoint (runstatus self) = default (runstatus_default fd) (s_runstatus_api_endpoint s)
  ∧ endpoint (iam self) = default (iam_default fd) (s_iam_api_endpoint s).
Proof. simpl. repeat split; reflexivity. Qed.

(** The resolved settings, field by field, in terms of the three sources. *)
Lemma resolve_chosen (w : world) (a : args) (op : option profile) (s : settings) (f : field) :
  select_profile w a = Ok op →
  resolve w a = Ok s →
  chosen f s = precedence (arg_of f a) (profile_entry f op) (getenv w (envvar f)).
Proof.
  intros Hsel. unfold resolve. rewrite Hsel. unmonad.
  destruct op as [p|]; simpl.
  - destruct (select_profile_keys _ _ _ Hsel) as (_ & [k Hk] & [sec Hs]).
    unfold or_profile_item, getitem. rewrite Hk, Hs.
    destruct (truthy (a_api_key a)) eqn:Ha, (truthy (a_api_secret a)) eqn:Hb; simpl;
      unfold merge_env; simpl;
      match goal with
      | |- context [or_env w ?x _API_KEY_ENVVAR] => destruct (or_env w x _API_KEY_ENVVAR) as [k'|] eqn:E1
      end; try discriminate;
      match goal with
      | |- context [or_env w ?x _API_SECRET_ENVVAR] => destruct (or_env w x _API_SECRET_ENVVAR) as [s'|] eqn:E2
      end; try discriminate;
      intros [= <-]; destruct f; simpl; rewrite ?or_profile_get_precedence; try reflexivity;
      first [ rewrite <- E1 | rewrite <- E2 ];
      unfold or_env, precedence; simpl; rewrite ?Ha, ?Hb, ?Hk, ?Hs; reflexivity.
  - unfold merge_env; simpl.
    destruct (or_env w (a_api_key a) _API_KEY_ENVVAR) as [k'|] eqn:E1; try discriminate.
    destruct (or_env w (a_api_secret a) _API_SECRET_ENVVAR) as [s'|] eqn:E2; try discriminate.
    intros [= <-]. destruct f; simpl; rewrite <- ?E1, <- ?E2; apply or_env_precedence.
Qed.

Lemma precedence_as_stated_agrees (explicit prof env : option string) :
  env ≠ Some EmptyString →
  precedence explicit prof env = precedence_as_stated explicit prof env.
Proof.
  unfold precedence, precedence_as_stated. intros He.
  destruct (truthy explicit), (truthy prof); try reflexivity.
  destruct env as [[|c s]|]; simpl; congruence.
Qed.

(** ** Precedence of the sources *)

(** C1, as the code has it: whenever the settings resolve, every field (key,
    secret, the five endpoints and the storage zone) holds the explicit
    argument if that is truthy, else the entry of the profile in use if that
    is truthy, else whatever the environment variable holds, the empty string
    included, and [None] when the variable is not set. *)
Theorem C1_precedence (w : world) (a : args) (op : option profile) (s : settings) (f : field) :
  select_profile w a = Ok op →
  resolve w a = Ok s →
  chosen f s = precedence (arg_of f a) (profile_entry f op) (getenv w (envvar f)).
Proof. apply resolve_chosen. Qed.

Lemma C1_precedence_witness :
  chosen F_api_secret (Settings "EXOexplicit" "sother" None (Some "https://dns.example")
                         None (Some "ch-gva-2") None None)
  = precedence (arg_of F_api_secret a_profile_other)
      (profile_entry F_api_secret (Some p_other))
      (getenv w_profile_other (envvar F_api_secret)).
Proof.
  apply (C1_precedence w_profile_other a_profile_other (Some p_other)); vm_compute; reflexivity.
Defined.

(** C1 as worded fails: with no configuration file, no arguments and the key
    variable set to the empty string, the key that is chosen is the empty
    string, where skipping every value that is not truthy would leave it
    [None]. *)
Lemma C1_as_stated_fails :
  select_profile w_empty_credentials no_args = Ok None
  ∧ resolve w_empty_credentials no_args
    = Ok (Settings EmptyString EmptyString None None None None None None)
  ∧ chosen F_api_key (Settings EmptyString EmptyString None None None None None None)
    ≠ precedence_as_stated (arg_of F_api_key no_args) (profile_entry F_api_key None)
        (getenv w_empty_credentials (envvar F_api_key)).
Proof. vm_compute. split; [reflexivity | split; [reflexivity | discriminate]]. Qed.

(** ** Missing credentials *)



(** C10: with no configuration file anywhere, no key and no secret among the
    arguments, and both credential variables set to the empty string, the
    constructor returns a client, whose key and secret are the empty
    string. *)
Theorem C10_empty_env_credentials (fd : family_defaults) (w : world) (a : args) (st : store) :
  a_config_file a = None →
  getenv w _CONFIG_FILE_ENVVAR = None →
  path_exists w (_DEFAULT_CONFIG_FILE w) = false →
  a_api_key a = None →
  a_api_secret a = None →
  getenv w _API_KEY_ENVVAR = Some EmptyString →
  getenv w _API_SECRET_ENVVAR = Some EmptyString →
  ∃ self st', Exoscale_init fd w a st = (Ok self, st')
              ∧ api_key self = EmptyString ∧ api_secret self = EmptyString.
Proof.
  intros Hcf Hce Hd Hk Hs Hek Hes.
  assert (∃ s, resolve w a = Ok s ∧ s_api_key s = EmptyString ∧ s_api_secret s = EmptyString)
    as (s & Hr & Hsk & Hss).
  { unfold resolve, select_profile, load_config. rewrite Hcf. simpl. rewrite Hce. simpl.
    rewrite Hd. unmonad. unfold merge_env. simpl. rewrite Hk, Hs. unfold or_env. simpl.
    rewrite Hek, Hes. eexists; split; [reflexivity|]. split; reflexivity. }
  rewrite (Exoscale_init_Ok fd w a st s Hr).
  eexists _, _. split; [reflexivity|].
  unfold build. simpl. auto.
Qed.

Lemma C10_empty_env_credentials_witness :
  ∃ self st', Exoscale_init fd_example w_empty_credentials no_args initial_store = (Ok self, st')
              ∧ api_key self = EmptyString ∧ api_secret self = EmptyString.
Proof.
  apply (C10_empty_env_credentials fd_example w_empty_credentials no_args initial_store);
    vm_compute; reflexivity.
Defined.

(** ** Profiles that lack a required key *)

(** C5: when the profile that was selected lacks [name], [api_key] or
    [api_secret], the constructor raises the [ConfigurationError] that names
    a key the profile lacks, whatever the environment and the other arguments
    hold: the check runs before any variable is read. *)
Theorem C5_profile_missing_key (fd : family_defaults) (w : world) (a : args) (st : store)
    (c : config) (p : profile) :
  load_config w (a_config_file a) = Ok (Some c) →
  _get_profile c (a_profile a) = Ok p →
  p !! "name" = None ∨ p !! "api_key" = None ∨ p !! "api_secret" = None →
  ∃ k, k ∈ ["name"; "api_key"; "api_secret"] ∧ p !! k = None
       ∧ Exoscale_init fd w a st = (Err (ConfigurationError (missing_key_message k)), st).
Proof.
  intros Hl Hg Hm.
  destruct (check_keys_missing (hash_order w) p Hm) as (k & Hin & Hk & Hc).
  exists k. split; [assumption|]. split; [assumption|].
  apply Exoscale_init_Err. unfold resolve, select_profile.
  rewrite Hl. unmonad. rewrite Hg, Hc. reflexivity.
Qed.

Lemma C5_profile_missing_key_witness :
  ∃ k, k ∈ ["name"; "api_key"; "api_secret"] ∧ p_no_secret !! k = None
       ∧ Exoscale_init fd_example w_no_secret a_file initial_store
         = (Err (ConfigurationError (missing_key_message k)), initial_store).
Proof.
  apply (C5_profile_missing_key fd_example w_no_secret a_file initial_store c_no_secret p_no_secret).
  - vm_compute. reflexivity.
  - vm_compute. reflexivity.
  - right. right. vm_compute. reflexivity.
Defined.

(** ** Files without profiles *)

(** X7: the guard of [_get_profile], on the configuration held when it
    runs: without a [profiles] entry, or with an empty one, the constructor
    raises [ConfigurationError], whatever the environment and the arguments
    hold, an explicit key and secret included. *)
Lemma no_profiles_raises (fd : family_defaults) (w : world) (a : args) (st : store) (c : config) :
  load_config w (a_config_file a) = Ok (Some c) →
  profiles c = None ∨ profiles c = Some [] →
  Exoscale_init fd w a st = (Err (ConfigurationError "no profiles configured"), st).
Proof.
  intros Hl Hp. apply Exoscale_init_Err. unfold resolve, select_profile.
  rewrite Hl. unmonad. unfold _get_profile.
  destruct Hp as [-> | ->]; reflexivity.
Qed.

(** C4 at the failing input: the file named by the argument is read, holds
    no [profiles] entry, and the constructor returns a client all the same,
    built from the default file. *)
Theorem C4_empty_file_no_error :
  toml_load w_empty_explicit (py_str (a_config_file a_empty_explicit)) = Ok c_empty
  ∧ profiles c_empty = None
  ∧ resolve w_empty_explicit a_empty_explicit
    = Ok (Settings "EXOother" "sother" None (Some "https://dns.example") None None None None)
  ∧ ∃ self st', Exoscale_init fd_example w_empty_explicit a_empty_explicit initial_store = (Ok self, st')
                ∧ api_key self = "EXOother".
Proof.
  split; [vm_compute; reflexivity|]. split; [reflexivity|].
  assert (resolve w_empty_explicit a_empty_explicit
          = Ok (Settings "EXOother" "sother" None (Some "https://dns.example") None None None None))
    as Hr by (vm_compute; reflexivity).
  split; [exact Hr|].
  rewrite (Exoscale_init_Ok _ _ _ _ _ Hr). eexists _, _. split; reflexivity.
Qed.

(** ** Locating the configuration file *)

Lemma load_config_explicit (w : world) (cf : option string) (c : config) :
  truthy cf = true →
  toml_load w (py_str cf) = Ok c →
  config_truthy c = true →
  load_config w cf = Ok (Some c).
Proof.
  intros Hcf Hl Hc. unfold load_config. rewrite Hcf. simpl. rewrite Hcf, Hl. unmonad.
  rewrite Hc. reflexivity.
Qed.

Lemma load_config_raises (w : world) (cf : option string) (e : exn) :
  truthy cf = true →
  toml_load w (py_str cf) = Err e →
  load_config w cf = Err e.
Proof.
  intros Hcf Hl. unfold load_config. rewrite Hcf. simpl. rewrite Hcf, Hl. reflexivity.
Qed.

Lemma load_config_envvar (w : world) (cf : option string) (c : config) :
  truthy cf = false →
  truthy (getenv w _CONFIG_FILE_ENVVAR) = true →
  toml_load w (py_str (getenv w _CONFIG_FILE_ENVVAR)) = Ok c →
  config_truthy c = true →
  load_config w cf = Ok (Some c).
Proof.
  intros Hcf He Hl Hc. unfold load_config. rewrite Hcf. simpl. rewrite He, Hl. unmonad.
  rewrite Hc. reflexivity.
Qed.

Lemma load_config_default (w : world) (cf : option string) :
  truthy cf = false →
  truthy (getenv w _CONFIG_FILE_ENVVAR) = false →
  path_exists w (_DEFAULT_CONFIG_FILE w) = true →
  load_config w cf = (c ← toml_load w (_DEFAULT_CONFIG_FILE w); mret (Some c)).
Proof.
  intros Hcf He Hd. unfold load_config. rewrite Hcf. simpl. rewrite He. unmonad.
  rewrite Hd. reflexivity.
Qed.

Lemma load_config_absent (w : world) (cf : option string) :
  truthy cf = false →
  truthy (getenv w _CONFIG_FILE_ENVVAR) = false →
  path_exists w (_DEFAULT_CONFIG_FILE w) = false →
  load_config w cf = Ok None.
Proof.
  intros Hcf He Hd. unfold load_config. rewrite Hcf. simpl. rewrite He. unmonad.
  rewrite Hd. reflexivity.
Qed.

(** C6 at the failing input: the path argument is given and its file is
    read, yet the configuration the constructor goes on with is the one of
    the default file, because a table without keys is no more truthy than a
    configuration that was never loaded. *)
Theorem C6_explicit_file_superseded :
  truthy (a_config_file a_empty_explicit) = true
  ∧ toml_load w_empty_explicit (py_str (a_config_file a_empty_explicit)) = Ok c_empty
  ∧ toml_load w_empty_explicit (_DEFAULT_CONFIG_FILE w_empty_explicit) = Ok c_two
  ∧ load_config w_empty_explicit (a_config_file a_empty_explicit) = Ok (Some c_two)
  ∧ select_profile w_empty_explicit a_empty_explicit = Ok (Some p_other).
Proof. vm_compute. repeat split; reflexivity. Qed.

(** ** Selecting the profile *)

Lemma find_profile_named (ps : list profile) (n : string) :
  Forall has_name ps →
  find_profile ps (Some n)
  = match first_named n ps with
    | Some p => Ok p
    | None => Err (ConfigurationError ("profile " ++ dq ++ n ++ dq ++ " not found"))
    end.
Proof.
  induction 1 as [|p ps [m Hm] _ IH]; [reflexivity|].
  simpl. unfold getitem. rewrite Hm. unmonad. unfold py_eq.
  destruct (decide (m = n)) as [->|Hne].
  - rewrite !bool_decide_eq_true_2 by reflexivity. reflexivity.
  - rewrite !bool_decide_eq_false_2 by congruence. apply IH.
Qed.

(** X8: the selection rule over a file whose profiles all carry a name: an
    explicit name wins over [default_profile], the latter is used otherwise,
    an unknown name is a [ConfigurationError], and without either the first
    profile of the file is taken. *)
Lemma get_profile_named (c : config) (p0 : profile) (ps : list profile) (name : option string) :
  profiles c = Some (p0 :: ps) →
  Forall has_name (p0 :: ps) →
  _get_profile c name
  = let by_name n :=
      match first_named n (p0 :: ps) with
      | Some p => Ok p
      | None => Err (ConfigurationError ("profile " ++ dq ++ n ++ dq ++ " not found"))
      end in
    if truthy name then by_name (py_str name)
    else match default_profile c with
         | Some d => by_name d
         | None => Ok p0
         end.
Proof.
  intros Hp Hn. unfold _get_profile. rewrite Hp.
  change (length (p0 :: ps) =? 0)%nat with false. cbv beta iota zeta.
  destruct (truthy name) eqn:Ht.
  - destruct (truthy_Some_inv _ Ht) as [n ->].
    change (py_str (Some n)) with n. rewrite <- find_profile_named by exact Hn.
    destruct (default_profile c); reflexivity.
  - destruct (default_profile c) as [d|].
    + rewrite bool_decide_eq_true_2 by eauto.
      rewrite <- find_profile_named by exact Hn. reflexivity.
    + rewrite bool_decide_eq_false_2 by (intros [? ?]; discriminate). reflexivity.
Qed.

(** C2 at the failing input: the first profile of the file has no [name]
    key; looking a profile up by name, given or taken from
    [default_profile], raises [KeyError] whether or not a later profile
    carries the name, and the constructor passes the exception on. *)
Theorem C2_nameless_profile_KeyError :
  _get_profile c_no_name (Some "nosuch") = Err (KeyError "name")
  ∧ _get_profile c_no_name (Some "default") = Err (KeyError "name")
  ∧ _get_profile (Config (Some "default") (profiles c_no_name) []) None = Err (KeyError "name")
  ∧ Exoscale_init fd_example w_no_name a_file_nosuch initial_store = (Err (KeyError "name"), initial_store).
Proof. vm_compute. repeat split; reflexivity. Qed.

(** ** Tracing around a request *)

(** C7, as the code has it: with tracing on, a call writes nothing when the
    request cannot be prepared, only the lines of the request when the
    session raises, and the lines of the request followed by the lines of the
    response when the session returns; the outcome of the call is the one
    that the same call has with tracing off. *)
Theorem C7_tracing {request_kwargs : Type}
    (prepare : request_kwargs → result PreparedRequest)
    (session_send : loc → PreparedRequest → result Response)
    (self : API) (kw : request_kwargs) :
  trace self = true →
  ((∃ e, prepare kw = Err e ∧ send prepare session_send self kw = ([], Err e))
   ∨ (∃ req e, prepare kw = Ok req ∧ session_send (session self) req = Err e
               ∧ send prepare session_send self kw = (pre_lines req, Err e))
   ∨ (∃ req res, prepare kw = Ok req ∧ session_send (session self) req = Ok res
                 ∧ send prepare session_send self kw
                   = (pre_lines req ++ post_lines res, Ok res)))
  ∧ (send prepare session_send self kw).2
    = (send prepare session_send (with_trace false self) kw).2.
Proof.
  intros Ht. unfold send. rewrite Ht. simpl.
  destruct (prepare kw) as [req|e]; [|split; [left; exists e; auto | reflexivity]].
  destruct (session_send (session self) req) as [res|e] eqn:Hs; simpl.
  - split; [right; right; exists req, res; auto | reflexivity].
  - split; [right; left; exists req, e; auto | reflexivity].
Qed.

Lemma C7_tracing_witness :
  ((∃ e, prepare_example tt = Err e
         ∧ send prepare_example session_refused api_traced tt = ([], Err e))
   ∨ (∃ req e, prepare_example tt = Ok req ∧ session_refused (session api_traced) req = Err e
               ∧ send prepare_example session_refused api_traced tt = (pre_lines req, Err e))
   ∨ (∃ req res, prepare_example tt = Ok req ∧ session_refused (session api_traced) req = Ok res
                 ∧ send prepare_example session_refused api_traced tt
                   = (pre_lines req ++ post_lines res, Ok res)))
  ∧ (send prepare_example session_refused api_traced tt).2
    = (send prepare_example session_refused (with_trace false api_traced) tt).2.
Proof. apply (C7_tracing prepare_example session_refused api_traced tt). reflexivity. Defined.

(** C7 as worded fails: when the connection is refused, the two lines of the
    request are on the diagnostic stream and no line of a response follows,
    which is neither both groups nor none. *)
Lemma C7_as_stated_fails :
  trace api_traced = true
  ∧ send prepare_example session_refused api_traced tt
    = ([">>> GET https://api.example/v1/zones"; "    headers:{'Accept': '*/*'}"],
       Err (RequestException "connection refused"))
  ∧ ¬ all_or_nothing prepare_example tt
        (send prepare_example session_refused api_traced tt).
Proof.
  split; [reflexivity|]. split; [reflexivity|].
  intros [[Hout _] | (req & res & _ & _ & Hres)].
  - vm_compute in Hout. discriminate Hout.
  - vm_compute in Hres. discriminate Hres.
Qed.

(** ** Resetting a resource *)








Example reset_example :
  getattr 5%positive "id" (_reset 5%positive h_example) = Some VNone
  ∧ getattr 5%positive "zone" (_reset 5%positive h_example) = Some VNone
  ∧ getattr 9%positive "name" (_reset 5%positive h_example) = Some (VStr "ch-gva-2").
Proof. vm_compute. repeat split; reflexivity. Qed.

(** ** The session shared by the family clients *)

(** Whatever else it is given, and whatever the sessions hold, an [API]
    built without a session holds the one session of the class. *)
Lemma API_new_default_session (endpoint key secret : string) (trace : option bool)
    (max_retries : option Z) (backoff : option Q) (st : store) :
  session (API_new endpoint key secret trace None max_retries backoff st).1 = default_session.
Proof. reflexivity. Qed.

Lemma API_new_given_session (endpoint key secret : string) (trace : option bool) (s : loc)
    (max_retries : option Z) (backoff : option Q) (st : store) :
  session (API_new endpoint key secret trace (Some s) max_retries backoff st).1 = s.
Proof. reflexivity. Qed.

Lemma family_new_fields (d : string) (kw : kwargs) (st : store) :
  let c := (family_new d kw st).1 in
  session c = default (default_session) (kw_session kw)
  ∧ key c = kw_key kw ∧ secret c = kw_secret kw
  ∧ max_retries c = kw_max_retries kw ∧ trace c = kw_trace kw
  ∧ endpoint c = default d (kw_endpoint kw).
Proof. simpl. repeat split; reflexivity. Qed.

(** Building a client mounts its adapters on its session: on the shared one
    when none was given. *)
Lemma API_new_mounts (endpoint key secret : string) (m : Z) (st : store) (o : session_obj) :
  st !! default_session = Some o →
  (API_new endpoint key secret None None (Some m) None st).2 !! default_session
  = Some (<["https://" := Adapter m (3 # 10)%Q None]>
            (<["http://" := Adapter m (3 # 10)%Q None]> o)).
Proof.
  intros Ho. unfold API_new, __attrs_post_init__, mount. simpl.
  rewrite !lookup_alter, !decide_True by reflexivity. rewrite Ho. reflexivity.
Qed.

Lemma build_clients (fd : family_defaults) (s : settings) (a : args) (st : store) :
  Forall (same_settings (build fd s a st).1 a) (clients (build fd s a st).1).
Proof.
  unfold build, clients, same_settings. simpl.
  repeat (apply Forall_cons; split; [repeat split; reflexivity|]). apply Forall_nil_2.
Qed.

(** C9: the five family clients of a top-level client hold the session that
    is the default of the class, and so do the clients of any other top-level
    client, whatever arguments, environment and sessions either was built
    with: all of them hold one and the same session.  The five clients of one
    top-level client carry its key and secret and the [max_retries] and
    [trace] it was called with. *)
Theorem C9_shared_session (fd1 fd2 : family_defaults) (w1 w2 : world) (a1 a2 : args)
    (st1 st2 st1' st2' : store) (self1 self2 : Exoscale) :
  Exoscale_init fd1 w1 a1 st1 = (Ok self1, st1') →
  Exoscale_init fd2 w2 a2 st2 = (Ok self2, st2') →
  Forall (same_settings self1 a1) (clients self1)
  ∧ Forall (fun c1 => Forall (fun c2 => session c1 = session c2) (clients self2))
           (clients self1).
Proof.
  intros H1 H2.
  apply Exoscale_init_inv in H1 as (s1 & _ & Hb1).
  apply Exoscale_init_inv in H2 as (s2 & _ & Hb2).
  pose proof (build_clients fd1 s1 a1 st1) as F1. rewrite Hb1 in F1.
  pose proof (build_clients fd2 s2 a2 st2) as F2. rewrite Hb2 in F2.
  split; [exact F1|]. simpl in F1, F2.
  eapply Forall_impl; [exact F1|]. intros c1 (Hs1 & _). simpl.
  eapply Forall_impl; [exact F2|]. intros c2 (Hs2 & _). simpl. congruence.
Qed.

Lemma C9_shared_session_witness :
  Forall (same_settings client_env no_args) (clients client_env)
  ∧ Forall (fun c1 => Forall (fun c2 => session c1 = session c2) (clients client_args))
           (clients client_env).
Proof.
  apply (C9_shared_session fd_example fd_example w_env_credentials w_nothing no_args a_retries
           initial_store initial_store
           (build fd_example (Settings "EXOenv" "senv" None None None None None None) no_args initial_store).2
           (build fd_example
              (Settings "EXOarg" "sarg" None (Some "https://dns.arg") None (Some "de-fra-1") None None)
              a_retries initial_store).2).
  - vm_compute. reflexivity.
  - vm_compute. reflexivity.
Defined.

(** The retry policy of the client built last is the one mounted on the
    session that the earlier clients hold too. *)
Example shared_session_remounted :
  (Exoscale_init fd_example w_nothing a_retries
     (Exoscale_init fd_example w_env_credentials no_args initial_store).2).2
    !! default_session
  = Some {[ "https://" := Adapter 7 (3 # 10)%Q None; "http://" := Adapter 7 (3 # 10)%Q None ]}.
Proof. vm_compute. reflexivity. Qed.


(** * Further properties of the code *)

(** ** The configuration file that is read *)

Lemma load_config_named (w : world) (cf : option string) :
  truthy (named_path w cf) = true →
  load_config w cf
  = (c ← toml_load w (py_str (named_path w cf));
     if negb (config_truthy c) && path_exists w (_DEFAULT_CONFIG_FILE w)
     then d ← toml_load w (_DEFAULT_CONFIG_FILE w); mret (Some d)
     else mret (Some c)).
Proof.
  unfold load_config, named_path. intros ->.
  destruct (toml_load w (py_str _)) as [c|e]; reflexivity.
Qed.

Lemma load_config_unnamed (w : world) (cf : option string) :
  truthy (named_path w cf) = false →
  load_config w cf
  = if path_exists w (_DEFAULT_CONFIG_FILE w)
    then d ← toml_load w (_DEFAULT_CONFIG_FILE w); mret (Some d)
    else mret None.
Proof. unfold load_config, named_path. intros ->. reflexivity. Qed.

(** X1: when a path is named, by the argument or else by the
    [EXOSCALE_CONFIG_FILE] variable, and that file cannot be opened or parsed,
    the constructor raises that very error: there is no fallback to the
    default file or to the environment credentials, and no session is
    touched. *)
Theorem named_file_error_is_raised (fd : family_defaults) (w : world) (a : args) (st : store)
    (e : exn) :
  truthy (named_path w (a_config_file a)) = true →
  toml_load w (py_str (named_path w (a_config_file a))) = Err e →
  Exoscale_init fd w a st = (Err e, st).
Proof.
  intros Hn He. apply Exoscale_init_Err. unfold resolve, select_profile.
  rewrite (load_config_named _ _ Hn), He. reflexivity.
Qed.

Lemma named_file_error_is_raised_witness :
  Exoscale_init fd_example w_missing_file a_missing_file initial_store
  = (Err (FileNotFoundError "/nowhere.toml"), initial_store).
Proof.
  apply (named_file_error_is_raised fd_example w_missing_file a_missing_file initial_store);
    vm_compute; reflexivity.
Defined.

(** X2: a named path whose file parses to a table with at least one key is
    the configuration in use, whether or not the default file exists. *)
Theorem named_file_is_used (w : world) (cf : option string) (c : config) :
  truthy (named_path w cf) = true →
  toml_load w (py_str (named_path w cf)) = Ok c →
  config_truthy c = true →
  load_config w cf = Ok (Some c).
Proof.
  intros Hn Hl Hc. rewrite (load_config_named _ _ Hn), Hl. unmonad. rewrite Hc. reflexivity.
Qed.

Lemma named_file_is_used_witness :
  load_config w_profile_other (Some "/etc/exoscale.toml") = Ok (Some c_two).
Proof.
  apply (named_file_is_used w_profile_other (Some "/etc/exoscale.toml") c_two);
    vm_compute; reflexivity.
Defined.

(** X3: a configuration in use is always the content of a file that was
    read: of the named path, or of the default path. *)
Theorem load_config_sound (w : world) (cf : option string) (c : config) :
  load_config w cf = Ok (Some c) →
  (truthy (named_path w cf) = true ∧ toml_load w (py_str (named_path w cf)) = Ok c)
  ∨ (path_exists w (_DEFAULT_CONFIG_FILE w) = true
     ∧ toml_load w (_DEFAULT_CONFIG_FILE w) = Ok c).
Proof.
  destruct (truthy (named_path w cf)) eqn:Hn.
  - rewrite (load_config_named _ _ Hn).
    destruct (toml_load w (py_str (named_path w cf))) as [c0|e] eqn:Hl; unmonad; [|discriminate].
    destruct (negb (config_truthy c0) && path_exists w (_DEFAULT_CONFIG_FILE w)) eqn:Hb.
    + apply andb_true_iff in Hb as [_ Hd].
      destruct (toml_load w (_DEFAULT_CONFIG_FILE w)) as [d|e]; [|discriminate].
      intros [= ->]. right. auto.
    + intros [= ->]. left. auto.
  - rewrite (load_config_unnamed _ _ Hn).
    destruct (path_exists w (_DEFAULT_CONFIG_FILE w)) eqn:Hd; unmonad; [|discriminate].
    destruct (toml_load w (_DEFAULT_CONFIG_FILE w)) as [d|e]; [|discriminate].
    intros [= ->]. right. auto.
Qed.

Lemma load_config_sound_witness :
  (truthy (named_path w_empty_explicit (Some "/tmp/empty.toml")) = true
   ∧ toml_load w_empty_explicit (py_str (named_path w_empty_explicit (Some "/tmp/empty.toml")))
     = Ok c_two)
  ∨ (path_exists w_empty_explicit (_DEFAULT_CONFIG_FILE w_empty_explicit) = true
     ∧ toml_load w_empty_explicit (_DEFAULT_CONFIG_FILE w_empty_explicit) = Ok c_two).
Proof.
  apply (load_config_sound w_empty_explicit (Some "/tmp/empty.toml") c_two).
  vm_compute. reflexivity.
Defined.

(** X4: the constructor goes on without any configuration exactly when no
    path is named and the default file does not exist. *)
Theorem load_config_none_iff (w : world) (cf : option string) :
  load_config w cf = Ok None
  ↔ truthy (named_path w cf) = false ∧ path_exists w (_DEFAULT_CONFIG_FILE w) = false.
Proof.
  split.
  - destruct (truthy (named_path w cf)) eqn:Hn.
    + rewrite (load_config_named _ _ Hn).
      destruct (toml_load w (py_str (named_path w cf))) as [c0|e]; unmonad; [|discriminate].
      destruct (negb (config_truthy c0) && path_exists w (_DEFAULT_CONFIG_FILE w));
        [destruct (toml_load w (_DEFAULT_CONFIG_FILE w))|]; discriminate.
    + rewrite (load_config_unnamed _ _ Hn).
      destruct (path_exists w (_DEFAULT_CONFIG_FILE w)); unmonad; [|auto].
      destruct (toml_load w (_DEFAULT_CONFIG_FILE w)); discriminate.
  - intros [Hn Hd]. rewrite (load_config_unnamed _ _ Hn), Hd. reflexivity.
Qed.

(** X5: a truthy [config_file] argument hides the [EXOSCALE_CONFIG_FILE]
    variable: setting the variable to anything does not change the
    configuration that is loaded. *)
Theorem config_file_argument_hides_variable (w : world) (cf : option string) (v : string) :
  truthy cf = true →
  load_config (setenv _CONFIG_FILE_ENVVAR v w) cf = load_config w cf.
Proof. unfold load_config. intros ->. reflexivity. Qed.

Lemma config_file_argument_hides_variable_witness :
  load_config (setenv _CONFIG_FILE_ENVVAR "/tmp/empty.toml" w_profile_other)
    (Some "/etc/exoscale.toml")
  = load_config w_profile_other (Some "/etc/exoscale.toml").
Proof.
  apply (config_file_argument_hides_variable w_profile_other (Some "/etc/exoscale.toml")).
  reflexivity.
Defined.

(** X6: without a configuration the [profile] argument is not looked at:
    the constructor does the same whatever profile name it is given. *)
Theorem profile_ignored_without_config (fd : family_defaults) (w : world) (a : args)
    (st : store) (x : option string) :
  load_config w (a_config_file a) = Ok None →
  resolve w (with_profile x a) = resolve w a
  ∧ Exoscale_init fd w (with_profile x a) st = Exoscale_init fd w a st.
Proof.
  intros Hl.
  assert (resolve w (with_profile x a) = resolve w a) as Hr.
  { unfold resolve, select_profile. simpl. rewrite Hl. reflexivity. }
  split; [exact Hr|]. unfold Exoscale_init. rewrite Hr. reflexivity.
Qed.

Lemma profile_ignored_without_config_witness :
  resolve w_env_credentials (with_profile (Some "nosuch") no_args)
  = resolve w_env_credentials no_args
  ∧ Exoscale_init fd_example w_env_credentials (with_profile (Some "nosuch") no_args) initial_store
    = Exoscale_init fd_example w_env_credentials no_args initial_store.
Proof.
  apply (profile_ignored_without_config fd_example w_env_credentials no_args initial_store).
  vm_compute. reflexivity.
Defined.

(** ** The profile that is selected *)

Lemma no_profiles_raises_witness :
  Exoscale_init fd_example w_no_profiles a_file_credentials initial_store
  = (Err (ConfigurationError "no profiles configured"), initial_store).
Proof.
  apply (no_profiles_raises fd_example w_no_profiles a_file_credentials initial_store
           c_no_profiles).
  - vm_compute. reflexivity.
  - right. reflexivity.
Defined.

Lemma get_profile_named_witness :
  _get_profile c_two (Some "default")
  = let by_name n :=
      match first_named n [p_default; p_other] with
      | Some p => Ok p
      | None => Err (ConfigurationError ("profile " ++ dq ++ n ++ dq ++ " not found"))
      end in
    if truthy (Some "default") then by_name (py_str (Some "default"))
    else match default_profile c_two with
         | Some d => by_name d
         | None => Ok p_default
         end.
Proof.
  apply (get_profile_named c_two p_default [p_other] (Some "default")).
  - reflexivity.
  - repeat constructor; eexists; vm_compute; reflexivity.
Defined.

(** X9: an empty string as profile name is the same as no name: the
    file's default profile, or else the first profile, is taken. *)
Theorem get_profile_empty_name (c : config) :
  _get_profile c (Some EmptyString) = _get_profile c None.
Proof.
  unfold _get_profile. destruct (profiles c) as [ps|]; [|reflexivity].
  destruct (length ps =? 0)%nat; [reflexivity|].
  destruct (default_profile c) as [d|]; reflexivity.
Qed.

Lemma find_profile_member (ps : list profile) (name : option string) (p : profile) :
  find_profile ps name = Ok p → p ∈ ps ∧ p !! "name" = name.
Proof.
  induction ps as [|a ps IH]; simpl; [discriminate|].
  unfold getitem. destruct (a !! "name") as [n|] eqn:Hn; unmonad; [|discriminate].
  unfold py_eq. case_bool_decide as He.
  - intros [= ->]. split; [left | congruence].
  - intros Hf. destruct (IH Hf) as [Hin Hp]. split; [right; exact Hin | exact Hp].
Qed.

Lemma get_profile_member (c : config) (name : option string) (p : profile) :
  _get_profile c name = Ok p →
  ∃ ps, profiles c = Some ps ∧ p ∈ ps
        ∧ match searched_name c name with
          | Some n => p !! "name" = Some n
          | None => head ps = Some p
          end.
Proof.
  unfold _get_profile, searched_name.
  destruct (profiles c) as [ps|]; [|discriminate].
  destruct ps as [|p0 ps]; [discriminate|].
  change (length (p0 :: ps) =? 0)%nat with false. cbv beta iota.
  destruct (truthy name) eqn:Ht.
  - simpl orb. cbv iota. intros Hf.
    assert (find_profile (p0 :: ps) name = Ok p) as Hf'
      by (destruct (default_profile c); exact Hf).
    destruct (find_profile_member _ _ _ Hf') as [Hin Hp].
    destruct (truthy_Some_inv _ Ht) as [n ->]. eauto.
  - destruct (default_profile c) as [d|]; intros Hf.
    + assert (find_profile (p0 :: ps) (Some d) = Ok p) as Hf' by exact Hf.
      destruct (find_profile_member _ _ _ Hf') as [Hin Hp]. eauto.
    + assert (Ok p0 = Ok p) as [= ->] by exact Hf.
      exists (p :: ps). repeat split. left.
Qed.

(** X10: the profile [_get_profile] returns is one of the profiles of the
    file; when a name is searched for, the argument or else
    [default_profile], the profile carries exactly that name, and otherwise
    it is the first profile of the file. *)
Theorem get_profile_sound (c : config) (name : option string) (p : profile) :
  _get_profile c name = Ok p →
  ∃ ps, profiles c = Some ps ∧ p ∈ ps
        ∧ match searched_name c name with
          | Some n => p !! "name" = Some n
          | None => head ps = Some p
          end.
Proof. apply get_profile_member. Qed.

Lemma get_profile_sound_witness :
  ∃ ps, profiles c_two = Some ps ∧ p_other ∈ ps
        ∧ match searched_name c_two None with
          | Some n => p_other !! "name" = Some n
          | None => head ps = Some p_other
          end.
Proof. apply (get_profile_sound c_two None p_other). vm_compute. reflexivity. Defined.







(** After the profile stage every field has the value the precedence of
    the sources gives it, and the stage after it cannot fail on a lookup. *)
Lemma merge_profile_ok (w : world) (a : args) (op : option profile) :
  select_profile w a = Ok op →
  ∃ m, merge_profile op a = Ok m
       ∧ ∀ f, or_env w (merged_of f m) (envvar f)
              = precedence (arg_of f a) (profile_entry f op) (getenv w (envvar f)).
Proof.
  intros Hsel. destruct op as [p|]; simpl.
  - destruct (select_profile_keys _ _ _ Hsel) as (_ & [k Hk] & [sec Hs]).
    unfold or_profile_item, getitem. rewrite Hk, Hs.
    destruct (truthy (a_api_key a)) eqn:Ha, (truthy (a_api_secret a)) eqn:Hb; simpl;
      (eexists; split; [reflexivity|]); intros f; destruct f; simpl;
      rewrite ?or_profile_get_precedence; try reflexivity;
      unfold or_env, precedence; simpl; rewrite ?Ha, ?Hb, ?Hk, ?Hs; reflexivity.
  - eexists; split; [reflexivity|]. intros f. destruct f; simpl; apply or_env_precedence.
Qed.



(** ** The required keys *)

(** X12: whether the check of the required keys passes does not depend on
    the order in which the set of keys is iterated: it passes exactly when
    the profile has all three. *)
Theorem check_keys_passes_iff (o : set_order) (p : profile) :
  check_keys (required_keys o) p = Ok tt
  ↔ is_Some (p !! "name") ∧ is_Some (p !! "api_key") ∧ is_Some (p !! "api_secret").
Proof.
  split; [apply check_keys_ok|].
  intros ([n Hn] & [k Hk] & [s Hs]). destruct o; simpl; rewrite Hn, Hk, Hs; reflexivity.
Qed.

(** X13: when exactly one required key is missing, the message names that
    key, in whatever order the set of keys is iterated. *)
Theorem check_keys_names_the_missing_key (o : set_order) (p : profile) (k : string) :
  p !! k = None →
  Forall (fun k' => k' = k ∨ is_Some (p !! k')) ["name"; "api_key"; "api_secret"] →
  k ∈ ["name"; "api_key"; "api_secret"] →
  check_keys (required_keys o) p = Err (ConfigurationError (missing_key_message k)).
Proof.
  intros Hk Hall Hin.
  assert (p !! "name" = None ∨ p !! "api_key" = None ∨ p !! "api_secret" = None) as Hm.
  { rewrite !elem_of_cons in Hin. destruct Hin as [->|[->|[->|Hin]]]; auto. inversion Hin. }
  destruct (check_keys_missing o p Hm) as (k0 & Hin0 & Hk0 & ->).
  rewrite Forall_forall in Hall. destruct (Hall k0 Hin0) as [->|[v Hv]]; [reflexivity|].
  congruence.
Qed.

Lemma check_keys_names_the_missing_key_witness :
  check_keys (required_keys SKN) p_no_secret
  = Err (ConfigurationError (missing_key_message "api_secret")).
Proof.
  apply (check_keys_names_the_missing_key SKN p_no_secret "api_secret").
  - vm_compute. reflexivity.
  - repeat (apply Forall_cons; split;
              [first [left; reflexivity | right; eexists; vm_compute; reflexivity]|]).
    apply Forall_nil_2.
  - repeat constructor.
Defined.

(** X14: the profile the constructor goes on with is one of the profiles of
    the configuration that was loaded, and it has the keys [name], [api_key]
    and [api_secret]. *)
Theorem profile_in_use (w : world) (a : args) (p : profile) :
  select_profile w a = Ok (Some p) →
  (∃ c ps, load_config w (a_config_file a) = Ok (Some c) ∧ profiles c = Some ps ∧ p ∈ ps)
  ∧ is_Some (p !! "name") ∧ is_Some (p !! "api_key") ∧ is_Some (p !! "api_secret").
Proof.
  intros Hsel. split; [|eapply select_profile_keys, Hsel].
  unfold select_profile in Hsel.
  destruct (load_config w (a_config_file a)) as [[c|]|e]; unmonad; try discriminate.
  destruct (_get_profile c (a_profile a)) as [q|e] eqn:Hg; try discriminate.
  destruct (check_keys (required_keys (hash_order w)) q) as [[]|e]; try discriminate.
  injection Hsel as ->.
  destruct (get_profile_member _ _ _ Hg) as (ps & Hps & Hin & _). eauto.
Qed.

Lemma profile_in_use_witness :
  (∃ c ps, load_config w_profile_other (a_config_file a_profile_other) = Ok (Some c)
           ∧ profiles c = Some ps ∧ p_other ∈ ps)
  ∧ is_Some (p_other !! "name") ∧ is_Some (p_other !! "api_key")
  ∧ is_Some (p_other !! "api_secret").
Proof.
  apply (profile_in_use w_profile_other a_profile_other p_other). vm_compute. reflexivity.
Defined.

(** ** When the settings resolve *)

(** X15: once the profile stage is over, the settings resolve exactly when
    the key and the secret each get a value from the precedence of the
    sources, a value that may be the empty string of the environment. *)
Theorem resolve_succeeds_iff (w : world) (a : args) (op : option profile) :
  select_profile w a = Ok op →
  is_Ok (resolve w a)
  ↔ is_Some (precedence (arg_of F_api_key a) (profile_entry F_api_key op)
               (getenv w (envvar F_api_key)))
    ∧ is_Some (precedence (arg_of F_api_secret a) (profile_entry F_api_secret op)
                 (getenv w (envvar F_api_secret))).
Proof.
  intros Hsel. destruct (merge_profile_ok w a op Hsel) as (m & Hm & Hf).
  rewrite <- (Hf F_api_key), <- (Hf F_api_secret). clear Hf.
  unfold resolve. rewrite Hsel. unmonad. rewrite Hm. unfold merge_env.
  destruct (or_env w (m_api_key m) _API_KEY_ENVVAR) as [k|],
           (or_env w (m_api_secret m) _API_SECRET_ENVVAR) as [s|]; simpl;
    split; try tauto; try (intros _; split; eauto);
    intros [[? ?] [? ?]]; discriminate.
Qed.

Lemma resolve_succeeds_iff_witness :
  is_Ok (resolve w_profile_other a_profile_other)
  ↔ is_Some (precedence (arg_of F_api_key a_profile_other)
               (profile_entry F_api_key (Some p_other))
               (getenv w_profile_other (envvar F_api_key)))
    ∧ is_Some (precedence (arg_of F_api_secret a_profile_other)
                 (profile_entry F_api_secret (Some p_other))
                 (getenv w_profile_other (envvar F_api_secret))).
Proof.
  apply (resolve_succeeds_iff w_profile_other a_profile_other (Some p_other)).
  vm_compute. reflexivity.
Defined.

(** ** Adapters mounted on a session *)








(** ** Outcome and output of [send] *)

(** X18: the outcome of [send] is the outcome of the session on the
    prepared request, or the error of the preparation: nothing is caught,
    retried or rewritten, with or without tracing. *)
Theorem send_outcome {request_kwargs : Type}
    (prepare : request_kwargs → result PreparedRequest)
    (session_send : loc → PreparedRequest → result Response)
    (self : API) (kw : request_kwargs) :
  (send prepare session_send self kw).2
  = (req ← prepare kw; session_send (session self) req).
Proof.
  unfold send. destruct (prepare kw) as [req|e]; [|reflexivity]. unmonad.
  destruct (session_send (session self) req); reflexivity.
Qed.

(** X19: with tracing off, [send] writes nothing, whatever happens to the
    request. *)
Theorem send_untraced_is_silent {request_kwargs : Type}
    (prepare : request_kwargs → result PreparedRequest)
    (session_send : loc → PreparedRequest → result Response)
    (self : API) (kw : request_kwargs) :
  trace self = false →
  (send prepare session_send self kw).1 = [].
Proof.
  intros Ht. unfold send. rewrite Ht.
  destruct (prepare kw) as [req|e]; [|reflexivity].
  destruct (session_send (session self) req); reflexivity.
Qed.

Lemma send_untraced_is_silent_witness :
  (send prepare_example session_ok api_seven tt).1 = [].
Proof. apply (send_untraced_is_silent prepare_example session_ok api_seven tt). reflexivity. Defined.

(** ** More on [_reset] *)







(** ** The search by name, profile by profile *)

(** X23: the search stops at the first profile that carries the name: it is
    returned whatever comes after it in the file, profiles without a name
    included. *)
Theorem find_profile_stops_at_match (pre post : list profile) (a : profile) (n : string) :
  Forall (fun p => ∃ m, p !! "name" = Some m ∧ m ≠ n) pre →
  a !! "name" = Some n →
  find_profile (pre ++ a :: post) (Some n) = Ok a.
Proof.
  intros Hpre Ha. induction Hpre as [|p pre (m & Hm & Hne) _ IH]; simpl.
  - unfold getitem. rewrite Ha. unmonad. unfold py_eq.
    rewrite bool_decide_eq_true_2 by reflexivity. reflexivity.
  - unfold getitem. rewrite Hm. unmonad. unfold py_eq.
    rewrite bool_decide_eq_false_2 by congruence. exact IH.
Qed.

Lemma find_profile_stops_at_match_witness :
  find_profile ([p_default] ++ p_other :: [p_no_name]) (Some "other") = Ok p_other.
Proof.
  apply (find_profile_stops_at_match [p_default] [p_no_name] p_other "other").
  - apply Forall_cons; split; [|apply Forall_nil_2].
    exists "default". split; [vm_compute; reflexivity | discriminate].
  - vm_compute. reflexivity.
Defined.

(** X24: a profile without a [name] key that the search reaches, no profile
    before it carrying the name, makes the search raise [KeyError], whatever
    comes after it in the file. *)
Theorem find_profile_nameless_raises (pre post : list profile) (a : profile) (n : string) :
  Forall (fun p => ∃ m, p !! "name" = Some m ∧ m ≠ n) pre →
  a !! "name" = None →
  find_profile (pre ++ a :: post) (Some n) = Err (KeyError "name").
Proof.
  intros Hpre Ha. induction Hpre as [|p pre (m & Hm & Hne) _ IH]; simpl.
  - unfold getitem. rewrite Ha. reflexivity.
  - unfold getitem. rewrite Hm. unmonad. unfold py_eq.
    rewrite bool_decide_eq_false_2 by congruence. exact IH.
Qed.

Lemma find_profile_nameless_raises_witness :
  find_profile ([p_default] ++ p_no_name :: [p_other]) (Some "other") = Err (KeyError "name").
Proof.
  apply (find_profile_nameless_raises [p_default] [p_other] p_no_name "other").
  - apply Forall_cons; split; [|apply Forall_nil_2].
    exists "default". split; [vm_compute; reflexivity | discriminate].
  - vm_compute. reflexivity.
Defined.

(** ** The printed form of a client *)

Lemma list_ascii_of_string_app (s1 s2 : string) :
  Stdlib.Strings.String.list_ascii_of_string (s1 ++ s2)
  = (Stdlib.Strings.String.list_ascii_of_string s1
     ++ Stdlib.Strings.String.list_ascii_of_string s2)%list.
Proof. induction s1 as [|c s1 IH]; simpl; [reflexivity|]. rewrite IH. reflexivity. Qed.

Lemma string_app_inv_tail (s1 s2 t : string) :
  (s1 ++ t = s2 ++ t)%string → s1 = s2.
Proof.
  intros H. apply (f_equal Stdlib.Strings.String.list_ascii_of_string) in H.
  rewrite !list_ascii_of_string_app in H. apply app_inv_tail in H.
  rewrite <- (Stdlib.Strings.String.string_of_list_ascii_of_string s1), <- (Stdlib.Strings.String.string_of_list_ascii_of_string s2).
  rewrite H. reflexivity.
Qed.

(** X25: the printed form of a client, the same for [repr] and [str], is
    fixed by its key alone and tells keys apart: two clients print the same
    exactly when they have the same key, whatever their secrets and family
    clients are. *)
Theorem repr_tells_the_key (c1 c2 : Exoscale) :
  Exoscale_str c1 = Exoscale_repr c1
  ∧ (Exoscale_repr c1 = Exoscale_repr c2 ↔ api_key c1 = api_key c2).
Proof.
  split; [reflexivity|]. unfold Exoscale_repr. split.
  - intros H. apply (inj (String.append _)) in H. eapply string_app_inv_tail, H.
  - intros ->. reflexivity.
Qed.

(** ** The precedence as it is worded *)

(** X26: for a field whose environment variable is not set, or set to
    something other than the empty string, the value chosen is the one the
    worded precedence gives: the first truthy value among the argument, the
    profile entry and the variable, and [None] when there is none. *)
Theorem worded_precedence_holds (w : world) (a : args) (op : option profile) (s : settings)
    (f : field) :
  select_profile w a = Ok op →
  resolve w a = Ok s →
  getenv w (envvar f) ≠ Some EmptyString →
  chosen f s
  = precedence_as_stated (arg_of f a) (profile_entry f op) (getenv w (envvar f)).
Proof.
  intros Hsel Hr He. rewrite <- (precedence_as_stated_agrees _ _ _ He).
  apply (resolve_chosen w a op s f Hsel Hr).
Qed.

Lemma worded_precedence_holds_witness :
  chosen F_storage_zone (Settings "EXOexplicit" "sother" None (Some "https://dns.example")
                           None (Some "ch-gva-2") None None)
  = precedence_as_stated (arg_of F_storage_zone a_profile_other)
      (profile_entry F_storage_zone (Some p_other))
      (getenv w_profile_other (envvar F_storage_zone)).
Proof.
  apply (worded_precedence_holds w_profile_other a_profile_other (Some p_other)).
  - vm_compute. reflexivity.
  - vm_compute. reflexivity.
  - vm_compute. discriminate.
Defined.
